(** * A shallow embedding of [flask_discord/models/user.py]

    The [User] model of Flask-Discord: construction from a JSON payload,
    the derived avatar properties, the cached guild and connection lists
    and the remote-fetch methods.  Python exceptions are the [Err] branch
    of a result type; methods that assign attributes are written in
    state-passing style, returning the updated [User] with their result. *)

From Stdlib Require Import ZArith NArith List String Ascii Bool Lia.
Set Warnings "-register-all".
Import ListNotations.
Open Scope string_scope.

(** ** Python values and exceptions *)

(** The JSON values a payload (and the Flask session) can hold.  A [str]
    is a Rocq [string]: each 8-bit [ascii] stands for the code point of
    that number, so the model covers strings of code points U+0000 to
    U+00FF (Latin-1); strings with other characters are not modelled. *)
Inductive pyval : Type :=
| PNone
| PBool (b : bool)
| PInt (z : Z)
| PStr (s : string)
| PDict (kvs : list (string * pyval)).

(** A [dict] with string keys, as an association list (keys are unique
    in the payloads the code receives; lookup takes the first binding). *)
Definition pydict := list (string * pyval).

(** The exceptions the code can raise. *)
Inductive pyerr : Type :=
| KeyError (k : string)
| TypeError
| ValueError
| AttributeError
| Unauthorized
| HttpError.

Inductive result (A : Type) : Type :=
| Ok (a : A)
| Err (e : pyerr).
Arguments Ok {A} a.
Arguments Err {A} e.

Definition bind {A B} (m : result A) (k : A -> result B) : result B :=
  match m with
  | Ok a => k a
  | Err e => Err e
  end.

Notation "x <- m ;; k" := (bind m (fun x => k))
  (at level 61, m at next level, right associativity).

Definition fmap {A B} (f : A -> B) (m : result A) : result B :=
  match m with Ok a => Ok (f a) | Err e => Err e end.

(** [d.get(k)] as an option. *)
Fixpoint dict_lookup {V} (k : string) (d : list (string * V)) : option V :=
  match d with
  | [] => None
  | (k', v) :: r => if String.eqb k k' then Some v else dict_lookup k r
  end.

(** [d[k]] on a dict: [KeyError k] when absent. *)
Definition dict_getitem {V} (d : list (string * V)) (k : string) : result V :=
  match dict_lookup k d with
  | Some v => Ok v
  | None => Err (KeyError k)
  end.

(** [d.get(k, default)]. *)
Definition dict_get {V} (d : list (string * V)) (k : string) (default : V) : V :=
  match dict_lookup k d with
  | Some v => v
  | None => default
  end.

(** [v[k]] on an arbitrary value: only dicts are subscriptable by a string. *)
Definition getitem (v : pyval) (k : string) : result pyval :=
  match v with
  | PDict kvs => dict_getitem kvs k
  | _ => Err TypeError
  end.

(** ** [str()] of a Python value *)

Fixpoint dec_digits (fuel : nat) (n : N) (acc : string) : string :=
  match fuel with
  | O => acc
  | S f =>
      let acc' := String (ascii_of_N (48 + N.modulo n 10)%N) acc in
      if N.eqb (N.div n 10) 0%N then acc' else dec_digits f (N.div n 10) acc'
  end.

(** [str(z)] for an [int]: decimal, with a leading minus sign. *)
Definition str_int (z : Z) : string :=
  match z with
  | Z0 => "0"
  | Zpos p => dec_digits (Pos.size_nat p) (Npos p) ""
  | Zneg p => "-" ++ dec_digits (Pos.size_nat p) (Npos p) ""
  end.

(** CPython's default [sys.get_int_max_str_digits()]: [int()] of a [str]
    and [str()] of an [int] raise [ValueError] beyond this many decimal
    digits. *)
Definition max_str_digits : Z := 4300.

(** [z] has at most [max_str_digits] decimal digits. *)
Definition int_str_ok (z : Z) : bool := Z.ltb (Z.abs z) (10 ^ max_str_digits).
Arguments int_str_ok : simpl never.

(** [str(z)] (also [format(z, '')] and an f-string field) for an [int]. *)
Definition py_str_int (z : Z) : result string :=
  if int_str_ok z then Ok (str_int z) else Err ValueError.

(** [repr()] of a value; string escapes are not modelled. *)
Fixpoint py_repr (v : pyval) : result string :=
  match v with
  | PNone => Ok "None"
  | PBool true => Ok "True"
  | PBool false => Ok "False"
  | PInt z => py_str_int z
  | PStr s => Ok ("'" ++ s ++ "'")
  | PDict kvs =>
      fmap (fun body => "{" ++ body ++ "}")
      ((fix items (l : list (string * pyval)) : result string :=
          match l with
          | [] => Ok ""
          | [(k, x)] => fmap (fun sx => "'" ++ k ++ "': " ++ sx) (py_repr x)
          | (k, x) :: r =>
              sx <- py_repr x ;;
              rest <- items r ;;
              Ok ("'" ++ k ++ "': " ++ sx ++ ", " ++ rest)
          end) kvs)
  end.

(** [str()] of a value (what an f-string or [str.format] inserts). *)
Definition py_str (v : pyval) : result string :=
  match v with
  | PStr s => Ok s
  | _ => py_repr v
  end.

(** ** [int()] of a Python value *)

(** The code points below 256 that [int()] treats as whitespace (those
    of [str.isspace()]: 9-13, 28-32, U+0085 and U+00A0). *)
Definition is_py_space (c : ascii) : bool :=
  let n := nat_of_ascii c in
  ((Nat.leb 9 n && Nat.leb n 13) || (Nat.leb 28 n && Nat.leb n 32) ||
   Nat.eqb n 133 || Nat.eqb n 160).

(** The decimal digits among code points below 256 are exactly [0]-[9]. *)
Definition is_digit (c : ascii) : bool :=
  let n := nat_of_ascii c in Nat.leb 48 n && Nat.leb n 57.

Definition digit_value (c : ascii) : Z := Z.of_nat (nat_of_ascii c - 48)%nat.

Fixpoint lstrip (s : string) : string :=
  match s with
  | EmptyString => EmptyString
  | String c r => if is_py_space c then lstrip r else s
  end.

Fixpoint rev_string (s : string) (acc : string) : string :=
  match s with
  | EmptyString => acc
  | String c r => rev_string r (String c acc)
  end.

Definition strip (s : string) : string :=
  rev_string (lstrip (rev_string (lstrip s) "")) "".

(** Base-10 digits, a single [_] allowed between two digits;
    [after_digit] records whether the previous character was a digit. *)
Fixpoint parse_digits (s : string) (acc : Z) (after_digit : bool) : option Z :=
  match s with
  | EmptyString => if after_digit then Some acc else None
  | String c r =>
      if is_digit c then parse_digits r (acc * 10 + digit_value c)%Z true
      else if Ascii.eqb c "_" && after_digit then parse_digits r acc false
      else None
  end.

(** [int(s)] for a string: surrounding whitespace, an optional sign, digits. *)
Definition parse_int (s : string) : option Z :=
  match strip s with
  | String c r =>
      if Ascii.eqb c "-" then option_map Z.opp (parse_digits r 0%Z false)
      else if Ascii.eqb c "+" then parse_digits r 0%Z false
      else parse_digits (String c r) 0%Z false
  | EmptyString => None
  end.

(** The number of decimal digits in a string (what CPython counts against
    [max_str_digits]: signs, underscores and whitespace are not digits). *)
Fixpoint count_digits (s : string) : Z :=
  match s with
  | EmptyString => 0
  | String c r => (if is_digit c then 1 else 0) + count_digits r
  end.

(** [int(v)]. *)
Definition py_int (v : pyval) : result Z :=
  match v with
  | PInt z => Ok z
  | PBool b => Ok (if b then 1 else 0)%Z
  | PStr s =>
      match parse_int s with
      | Some z => if Z.leb (count_digits s) max_str_digits then Ok z else Err ValueError
      | None => Err ValueError
      end
  | PNone | PDict _ => Err TypeError
  end.

(** [str.startswith(prefix)]. *)
Definition startswith (s prefix : string) : bool := String.prefix prefix s.

(** ** Collaborators outside [user.py] *)

(** Modelled from the spec: [Guild] (models/guild.py, not in this file),
    of which the code reads only the [id] attribute, the key of the cache. *)
Record Guild : Type := mkGuild {
  guild_id : Z;
  guild_name : string
}.

(** Modelled from the spec: [UserConnection] (models/connections.py, not
    in this file); the code only stores these records in a list. *)
Record UserConnection : Type := mkUserConnection {
  connection_id : string;
  connection_type : string
}.

(** Modelled from the spec: [DiscordModelsBase.__init__] (models/base.py,
    not in this file) keeps the payload as [self._payload]; it performs
    "no validation beyond presence of id and numeric coercion", which is
    done by [User.__init__] itself. *)
Definition DiscordModelsBase_init (payload : pydict) : pydict := payload.

(** Modelled from the spec: the configuration constants of [configs.py]
    used by [avatar_url].  The base-URL template is kept as the list of
    literal text and replacement fields [str.format] reads it as. *)
Inductive segment : Type :=
| Lit (s : string)
| Field (name : string).

Record Configs : Type := mkConfigs {
  DISCORD_USER_AVATAR_BASE_URL : list segment;
  DISCORD_IMAGE_FORMAT : string;
  DISCORD_ANIMATED_IMAGE_FORMAT : string
}.

(** Modelled from the spec: the ambient context the methods read.  The
    Flask [session] and [current_app.config] are dicts; the HTTP layer
    ([DiscordModelsBase._request] and the [fetch_from_api] class methods
    of [Guild] and [UserConnection], which go through it) is an oracle
    returning a decoded body or raising (the spec: "raises on
    authorization failure", errors "surfaced unmodified"). *)
Record Env : Type := mkEnv {
  session : pydict;
  app_config : list (string * string);
  (** [Guild.fetch_from_api()] *)
  guild_api : result (list Guild);
  (** [UserConnection.fetch_from_api()] *)
  connection_api : result (list UserConnection);
  (** [_request(route, method, oauth, json, headers)] *)
  request : string -> string -> bool -> pyval -> list (string * string) -> result pyval
}.

(** ** The [User] object *)

(** The attributes of a [User] instance; [id] is named [user_id]. *)
Record User : Type := mkUser {
  _payload : pydict;
  user_id : Z;
  username : pyval;
  discriminator : pyval;
  avatar_hash : pyval;
  bot : pyval;
  mfa_enabled : pyval;
  locale : pyval;
  verified : pyval;
  email : pyval;
  flags : pyval;
  premium_type : pyval;
  _guilds : list (Z * Guild);
  connections : list UserConnection
}.

(** [User.__init__(payload)]. *)
Definition User_init (payload : pydict) : result User :=
  let p := DiscordModelsBase_init payload in
  id_v <- dict_getitem p "id" ;;
  id <- py_int id_v ;;
  username <- dict_getitem p "username" ;;
  discriminator <- dict_getitem p "discriminator" ;;
  Ok {| _payload := p;
        user_id := id;
        username := username;
        discriminator := discriminator;
        avatar_hash := dict_get p "avatar" discriminator;
        bot := dict_get p "bot" (PBool false);
        mfa_enabled := dict_get p "mfa_enabled" PNone;
        locale := dict_get p "locale" PNone;
        verified := dict_get p "verified" PNone;
        email := dict_get p "email" PNone;
        flags := dict_get p "flags" PNone;
        premium_type := dict_get p "premium_type" PNone;
        _guilds := [];
        connections := [] |}.

(** [d[k] = v] on an insertion-ordered dict with integer keys: an existing
    key keeps its position and takes the new value, a new key goes last. *)
Fixpoint dict_setitem {V} (k : Z) (v : V) (d : list (Z * V)) : list (Z * V) :=
  match d with
  | [] => [(k, v)]
  | (k', v') :: r => if Z.eqb k k' then (k, v) :: r else (k', v') :: dict_setitem k v r
  end.

(** [{guild.id: guild for guild in gs}]. *)
Definition guild_dict (gs : list Guild) : list (Z * Guild) :=
  fold_left (fun d g => dict_setitem (guild_id g) g d) gs [].

(** The [guilds] property: [list(self._guilds.values())]. *)
Definition guilds (u : User) : list Guild := map snd (_guilds u).

(** The [name] property. *)
Definition name (u : User) : pyval := username u.

(** [User.__str__]: [f"{self.name}#{self.discriminator}"]. *)
Definition User_str (u : User) : result string :=
  n <- py_str (name u) ;;
  d <- py_str (discriminator u) ;;
  Ok (n ++ "#" ++ d).

(** The [is_avatar_animated] property: [self.avatar_hash.startswith("a_")];
    a value other than a [str] has no [startswith] attribute. *)
Definition is_avatar_animated (u : User) : result bool :=
  match avatar_hash u with
  | PStr h => Ok (startswith h "a_")
  | _ => Err AttributeError
  end.

(** [template.format(...)] with keyword arguments, one string per segment
    of the template, rendered left to right: a field missing from the
    keyword arguments raises [KeyError], and a field's value is rendered
    with [str()] (which can raise for an [int] past the digit limit). *)
Fixpoint format_segments (tmpl : list segment) (kwargs : list (string * pyval))
  : result (list string) :=
  match tmpl with
  | [] => Ok []
  | Lit s :: r => rest <- format_segments r kwargs ;; Ok (s :: rest)
  | Field n :: r =>
      v <- dict_getitem kwargs n ;;
      sv <- py_str v ;;
      rest <- format_segments r kwargs ;; Ok (sv :: rest)
  end.

(** The replacement-field values of [avatar_url], segment by segment. *)
Definition avatar_url_segments (cfg : Configs) (u : User) : result (list string) :=
  animated <- is_avatar_animated u ;;
  let image_format := if animated then DISCORD_ANIMATED_IMAGE_FORMAT cfg
                      else DISCORD_IMAGE_FORMAT cfg in
  format_segments (DISCORD_USER_AVATAR_BASE_URL cfg)
    [("user_id", PInt (user_id u));
     ("avatar_hash", avatar_hash u);
     ("format", PStr image_format)].

(** The [avatar_url] property. *)
Definition avatar_url (cfg : Configs) (u : User) : result string :=
  fmap (String.concat "") (avatar_url_segments cfg u).

(** Truthiness of a value, for [x or dict()]. *)
Definition truthy (v : pyval) : bool :=
  match v with
  | PNone => false
  | PBool b => b
  | PInt z => negb (Z.eqb z 0)
  | PStr s => negb (String.eqb s "")
  | PDict kvs => match kvs with [] => false | _ => true end
  end.

(** [User.add_to_guild(guild_id)]; it assigns no attribute. *)
Definition add_to_guild (env : Env) (u : User) (guild_id : Z) : User * result pyval :=
  (u,
   token <- dict_getitem (session env) "DISCORD_OAUTH2_TOKEN" ;;
   access_token <- getitem token "access_token" ;;
   let data := PDict [("access_token", access_token)] in
   bot_token <- dict_getitem (app_config env) "DISCORD_BOT_TOKEN" ;;
   let headers := [("Authorization", "Bot " ++ bot_token)] in
   gid_s <- py_str_int guild_id ;;
   uid_s <- py_str_int (user_id u) ;;
   r <- request env ("/guilds/" ++ gid_s ++ "/members/" ++ uid_s) "PUT" false data headers ;;
   Ok (if truthy r then r else PDict [])).

(** [User.fetch_guilds()]: the new cache is assigned only once
    [Guild.fetch_from_api()] has returned. *)
Definition fetch_guilds (env : Env) (u : User) : User * result (list Guild) :=
  match guild_api env with
  | Ok gs =>
      let u' := {| _payload := _payload u; user_id := user_id u;
                   username := username u; discriminator := discriminator u;
                   avatar_hash := avatar_hash u; bot := bot u;
                   mfa_enabled := mfa_enabled u; locale := locale u;
                   verified := verified u; email := email u; flags := flags u;
                   premium_type := premium_type u;
                   _guilds := guild_dict gs;
                   connections := connections u |} in
      (u', Ok (guilds u'))
  | Err e => (u, Err e)
  end.

(** [User.fetch_connections()]. *)
Definition fetch_connections (env : Env) (u : User) : User * result (list UserConnection) :=
  match connection_api env with
  | Ok cs =>
      let u' := {| _payload := _payload u; user_id := user_id u;
                   username := username u; discriminator := discriminator u;
                   avatar_hash := avatar_hash u; bot := bot u;
                   mfa_enabled := mfa_enabled u; locale := locale u;
                   verified := verified u; email := email u; flags := flags u;
                   premium_type := premium_type u;
                   _guilds := _guilds u;
                   connections := cs |} in
      (u', Ok (connections u'))
  | Err e => (u, Err e)
  end.

(** The public operations of a [User], with the state each leaves behind
    (properties and [__str__] read the object and assign nothing). *)
Inductive Method : Type :=
| MGuilds
| MStr
| MName
| MAvatarUrl
| MIsAvatarAnimated
| MAddToGuild (guild_id : Z)
| MFetchGuilds
| MFetchConnections.

Definition run_method (cfg : Configs) (env : Env) (m : Method) (u : User) : User :=
  match m with
  | MGuilds => let _ := guilds u in u
  | MStr => let _ := User_str u in u
  | MName => let _ := name u in u
  | MAvatarUrl => let _ := avatar_url cfg u in u
  | MIsAvatarAnimated => let _ := is_avatar_animated u in u
  | MAddToGuild g => fst (add_to_guild env u g)
  | MFetchGuilds => fst (fetch_guilds env u)
  | MFetchConnections => fst (fetch_connections env u)
  end.

(** A sequence of method calls. *)
Definition run_methods (cfg : Configs) (env : Env) (ms : list Method) (u : User) : User :=
  fold_left (fun st m => run_method cfg env m st) ms u.

(** [self.avatar_hash = h] (used to compare two users differing only there). *)
Definition set_avatar_hash (u : User) (h : pyval) : User :=
  {| _payload := _payload u; user_id := user_id u;
     username := username u; discriminator := discriminator u;
     avatar_hash := h; bot := bot u;
     mfa_enabled := mfa_enabled u; locale := locale u;
     verified := verified u; email := email u; flags := flags u;
     premium_type := premium_type u;
     _guilds := _guilds u; connections := connections u |}.

(** The scalar attributes set by [__init__]. *)
Definition user_scalars (u : User) :=
  (user_id u, username u, discriminator u, avatar_hash u, bot u, mfa_enabled u,
   locale u, verified u, email u, flags u, premium_type u).


(** [all(f(c) for c in s)]: used to describe the strings [str()] produces. *)
Fixpoint all_chars (f : ascii -> bool) (s : string) : bool :=
  match s with
  | EmptyString => true
  | String c r => f c && all_chars f r
  end.

(** [self._guilds.get(k)] on the integer-keyed guild cache. *)
Fixpoint zlookup {V} (k : Z) (d : list (Z * V)) : option V :=
  match d with
  | [] => None
  | (k', v) :: r => if Z.eqb k k' then Some v else zlookup k r
  end.

(** The last record of [gs] whose [id] is [k]. *)
Definition last_guild_with (k : Z) (gs : list Guild) : option Guild :=
  fold_left (fun acc g => if Z.eqb (guild_id g) k then Some g else acc) gs None.


(** ** Concrete inputs *)

(** Modelled from the spec: a concrete [configs.py] (not in this file), a
    base-URL template with the three fields and distinct static and
    animated image formats, as the spec's "static vs animated" describes. *)
Definition discord_configs : Configs :=
  mkConfigs [Lit "https://cdn.discordapp.com/avatars/"; Field "user_id"; Lit "/";
             Field "avatar_hash"; Lit "."; Field "format"] "png" "gif".

Definition sample_payload : pydict :=
  [("id", PStr "80351110224678912"); ("username", PStr "Nelly");
   ("discriminator", PStr "1337"); ("avatar", PStr "8342729096ea3675442027381ff50dfe");
   ("verified", PBool true); ("email", PStr "nelly@discord.com")].

(** A user as [User(payload)] builds it, with empty caches. *)
Definition sample_user : User :=
  match User_init sample_payload with
  | Ok u => u
  | Err _ => set_avatar_hash
      (mkUser [] 0 PNone PNone PNone PNone PNone PNone PNone PNone PNone PNone [] []) PNone
  end.

(** A context: a session, an app config and fixed answers of the API. *)
Definition make_env (sess : pydict) (gapi : result (list Guild))
  (capi : result (list UserConnection)) (resp : result pyval) : Env :=
  mkEnv sess [("DISCORD_BOT_TOKEN", "bot-secret")] gapi capi (fun _ _ _ _ _ => resp).

Definition logged_in_session : pydict :=
  [("DISCORD_OAUTH2_TOKEN", PDict [("access_token", PStr "user-token")])].

Example str_int_ex : str_int 1234%Z = "1234" /\ str_int (-50)%Z = "-50" /\ str_int 0%Z = "0".
Proof. vm_compute. repeat split. Qed.
Example parse_int_ex : parse_int " -1_000 " = Some (-1000)%Z /\ parse_int "1__0" = None
  /\ parse_int "007" = Some 7%Z /\ parse_int "_1" = None /\ parse_int "" = None.
Proof. vm_compute. repeat split. Qed.
Example sample_user_ex :
  User_init sample_payload = Ok sample_user /\ user_id sample_user = 80351110224678912%Z /\
  User_str sample_user = Ok "Nelly#1337" /\ guilds sample_user = [] /\
  avatar_url discord_configs sample_user =
    Ok "https://cdn.discordapp.com/avatars/80351110224678912/8342729096ea3675442027381ff50dfe.png".
Proof. vm_compute. repeat split. Qed.

(** ** Construction *)

Lemma bind_ok {A B} (m : result A) (k : A -> result B) (a : A) :
  m = Ok a -> bind m k = k a.
Proof. intros ->; reflexivity. Qed.

Lemma User_init_ok_inv (p : pydict) (u : User) :
  User_init p = Ok u ->
  exists id_v username discriminator,
    dict_lookup "id" p = Some id_v /\ py_int id_v = Ok (user_id u) /\
    dict_lookup "username" p = Some username /\
    dict_lookup "discriminator" p = Some discriminator /\
    u = {| _payload := p; user_id := user_id u; username := username;
           discriminator := discriminator;
           avatar_hash := dict_get p "avatar" discriminator;
           bot := dict_get p "bot" (PBool false);
           mfa_enabled := dict_get p "mfa_enabled" PNone;
           locale := dict_get p "locale" PNone;
           verified := dict_get p "verified" PNone;
           email := dict_get p "email" PNone;
           flags := dict_get p "flags" PNone;
           premium_type := dict_get p "premium_type" PNone;
           _guilds := []; connections := [] |}.
Proof.
  unfold User_init, DiscordModelsBase_init, dict_getitem.
  destruct (dict_lookup "id" p) as [v|] eqn:Hid; [|discriminate]; simpl.
  destruct (py_int v) as [z|e] eqn:Hz; [|discriminate]; simpl.
  destruct (dict_lookup "username" p) as [n|] eqn:Hn; [|discriminate]; simpl.
  destruct (dict_lookup "discriminator" p) as [d|] eqn:Hd; [|discriminate]; simpl.
  intros H; injection H as <-.
  exists v, n, d; repeat split; assumption.
Qed.




(** C7: without an ["avatar"] key the avatar hash is the discriminator;
    with one, it is that key's value. *)
Theorem User_init_avatar_hash (p : pydict) (u : User) :
  User_init p = Ok u ->
  (dict_lookup "avatar" p = None -> avatar_hash u = discriminator u) /\
  (forall v, dict_lookup "avatar" p = Some v -> avatar_hash u = v).
Proof.
  intros H; apply User_init_ok_inv in H as (iv & n & d & _ & _ & _ & _ & ->); simpl.
  unfold dict_get; split; [intros ->|intros v ->]; reflexivity.
Qed.

Lemma User_init_avatar_hash_witness :
  avatar_hash sample_user = PStr "8342729096ea3675442027381ff50dfe" /\
  exists u, User_init [("id", PInt 7); ("username", PStr "x"); ("discriminator", PStr "0001")]
              = Ok u /\ avatar_hash u = PStr "0001".
Proof.
  split.
  - apply (proj2 (User_init_avatar_hash sample_payload sample_user eq_refl)); reflexivity.
  - eexists; split; [reflexivity|].
    apply (proj1 (User_init_avatar_hash
             [("id", PInt 7); ("username", PStr "x"); ("discriminator", PStr "0001")]
             _ eq_refl)); reflexivity.
Defined.

(** ** The avatar properties *)

Lemma startswith_a_iff (h : string) :
  startswith h "a_" = true <-> exists r, h = "a_" ++ r.
Proof.
  unfold startswith; split.
  - destruct h as [|c1 [|c2 r]]; cbn [String.prefix]; [discriminate| |].
    + destruct (ascii_dec "a" c1); intros H; discriminate H.
    + destruct (ascii_dec "a" c1) as [<-|]; [|intros H; discriminate H].
      destruct (ascii_dec "_" c2) as [<-|]; [|intros H; discriminate H].
      intros _; exists r; reflexivity.
  - intros [r ->]; cbn [String.prefix String.append].
    destruct (ascii_dec "a" "a"); [|congruence].
    destruct (ascii_dec "_" "_"); [|congruence].
    destruct r; reflexivity.
Qed.

(** C5: for a string avatar hash, [is_avatar_animated] holds iff the hash
    starts with ["a_"]; it reads nothing but [avatar_hash]. *)
Theorem is_avatar_animated_iff (u : User) (h : string) :
  avatar_hash u = PStr h ->
  (is_avatar_animated u = Ok true <-> exists r, h = "a_" ++ r) /\
  is_avatar_animated u = Ok (startswith h "a_") /\
  (forall u2, avatar_hash u2 = avatar_hash u -> is_avatar_animated u2 = is_avatar_animated u).
Proof.
  intros Hh; unfold is_avatar_animated; rewrite Hh.
  split; [|split; [reflexivity|]].
  - rewrite <- startswith_a_iff; split; [intros H; injection H; auto|intros ->; reflexivity].
  - intros u2 H2; rewrite H2; reflexivity.
Qed.

Lemma is_avatar_animated_iff_witness :
  is_avatar_animated (set_avatar_hash sample_user (PStr "abc123")) = Ok false /\
  is_avatar_animated (set_avatar_hash sample_user (PStr "a_abc123")) = Ok true.
Proof.
  split.
  - exact (proj1 (proj2 (is_avatar_animated_iff
             (set_avatar_hash sample_user (PStr "abc123")) "abc123" eq_refl))).
  - apply (proj1 (is_avatar_animated_iff
             (set_avatar_hash sample_user (PStr "a_abc123")) "a_abc123" eq_refl)).
    exists "abc123"; reflexivity.
Defined.

(** C9: an ["avatar"] key holding [null] gives a [None] avatar hash (no
    default), and both avatar properties then raise [AttributeError]. *)
Theorem avatar_null_raises (cfg : Configs) (p : pydict) (u : User) :
  User_init p = Ok u -> dict_lookup "avatar" p = Some PNone ->
  avatar_hash u = PNone /\ is_avatar_animated u = Err AttributeError /\
  avatar_url cfg u = Err AttributeError.
Proof.
  intros Hu Ha.
  assert (Hn : avatar_hash u = PNone).
  { apply User_init_ok_inv in Hu as (iv & n & d & _ & _ & _ & _ & Hu).
    rewrite Hu; cbn [avatar_hash]; unfold dict_get; rewrite Ha; reflexivity. }
  unfold avatar_url, avatar_url_segments, is_avatar_animated; rewrite Hn.
  repeat split.
Qed.

Lemma avatar_null_raises_witness :
  exists u, User_init [("id", PInt 7); ("username", PStr "x"); ("discriminator", PStr "0001");
                       ("avatar", PNone)] = Ok u /\
    avatar_url discord_configs u = Err AttributeError.
Proof.
  eexists; split; [reflexivity|].
  apply (avatar_null_raises discord_configs
           [("id", PInt 7); ("username", PStr "x"); ("discriminator", PStr "0001");
            ("avatar", PNone)] _ eq_refl); reflexivity.
Defined.

(** ** The guild cache *)

Lemma dict_setitem_keys_in {V} (k x : Z) (v : V) (d : list (Z * V)) :
  In x (map fst (dict_setitem k v d)) <-> k = x \/ In x (map fst d).
Proof.
  induction d as [|[k' v'] r IH]; simpl; [tauto|].
  destruct (Z.eqb_spec k k') as [->|Hne]; simpl; [tauto|].
  rewrite IH; tauto.
Qed.

Lemma dict_setitem_nodup {V} (k : Z) (v : V) (d : list (Z * V)) :
  NoDup (map fst d) -> NoDup (map fst (dict_setitem k v d)).
Proof.
  induction d as [|[k' v'] r IH]; simpl; intros Hnd.
  - constructor; [intros []|constructor].
  - inversion Hnd as [|? ? Hnin Hr]; subst.
    destruct (Z.eqb_spec k k') as [->|Hne]; simpl; [constructor; assumption|].
    constructor; [|apply IH; assumption].
    rewrite dict_setitem_keys_in; intros [Heq|H]; [congruence|contradiction].
Qed.

Lemma guild_dict_fold_keys (gs : list Guild) (d : list (Z * Guild)) (x : Z) :
  In x (map fst (fold_left (fun d g => dict_setitem (guild_id g) g d) gs d))
  <-> In x (map fst d) \/ In x (map guild_id gs).
Proof.
  revert d; induction gs as [|g gs IH]; intros d; simpl; [tauto|].
  rewrite IH, dict_setitem_keys_in; tauto.
Qed.

Lemma guild_dict_fold_nodup (gs : list Guild) (d : list (Z * Guild)) :
  NoDup (map fst d) ->
  NoDup (map fst (fold_left (fun d g => dict_setitem (guild_id g) g d) gs d)).
Proof.
  revert d; induction gs as [|g gs IH]; intros d Hd; simpl; [assumption|].
  apply IH, dict_setitem_nodup, Hd.
Qed.

Lemma guild_dict_keys (gs : list Guild) (x : Z) :
  In x (map fst (guild_dict gs)) <-> In x (map guild_id gs).
Proof. unfold guild_dict; rewrite guild_dict_fold_keys; simpl; tauto. Qed.

Lemma guild_dict_nodup (gs : list Guild) : NoDup (map fst (guild_dict gs)).
Proof. apply guild_dict_fold_nodup; constructor. Qed.

Lemma guild_dict_length (gs : list Guild) :
  List.length (guild_dict gs) = List.length (nodup Z.eq_dec (map guild_id gs)).
Proof.
  rewrite <- (length_map fst (guild_dict gs)).
  apply Nat.le_antisymm; apply NoDup_incl_length.
  - apply guild_dict_nodup.
  - intros x Hx; apply nodup_In, guild_dict_keys, Hx.
  - apply NoDup_nodup.
  - intros x Hx; apply guild_dict_keys, (nodup_In Z.eq_dec), Hx.
Qed.

(** C2 (counterexample): two guild records with the same id leave one
    cache entry, so [len(guilds)] is 1 while the API returned 2 records. *)
Lemma fetch_guilds_duplicate_ids :
  let gs := [mkGuild 1 "first"; mkGuild 1 "second"] in
  let env := make_env logged_in_session (Ok gs) (Ok []) (Ok PNone) in
  List.length (guilds (fst (fetch_guilds env sample_user))) = 1%nat /\
  List.length gs = 2%nat.
Proof. split; reflexivity. Qed.

(** C2 (amended): a successful [fetch_guilds()] sets the cache to the dict
    built from the fetched records alone (earlier entries are dropped);
    its keys are exactly the fetched ids, each once; [len(guilds)] is the
    number of distinct fetched ids, which is N when the N ids are
    distinct; the call returns the new [guilds] view. *)
Theorem fetch_guilds_replaces (env : Env) (u : User) (gs : list Guild) :
  guild_api env = Ok gs ->
  _guilds (fst (fetch_guilds env u)) = guild_dict gs /\
  snd (fetch_guilds env u) = Ok (guilds (fst (fetch_guilds env u))) /\
  (forall x, In x (map fst (_guilds (fst (fetch_guilds env u)))) <-> In x (map guild_id gs)) /\
  (forall g, In g gs ->
     count_occ Z.eq_dec (map fst (_guilds (fst (fetch_guilds env u)))) (guild_id g) = 1%nat) /\
  List.length (guilds (fst (fetch_guilds env u))) =
    List.length (nodup Z.eq_dec (map guild_id gs)) /\
  (NoDup (map guild_id gs) -> List.length (guilds (fst (fetch_guilds env u))) = List.length gs).
Proof.
  intros Hapi; unfold fetch_guilds; rewrite Hapi; simpl.
  split; [reflexivity|]; split; [reflexivity|]; split; [apply guild_dict_keys|].
  split; [|split; [unfold guilds; simpl; rewrite length_map; apply guild_dict_length|]].
  - intros g Hg.
    pose proof (guild_dict_nodup gs) as Hnd.
    apply (proj1 (NoDup_count_occ' Z.eq_dec _) Hnd).
    apply guild_dict_keys, in_map, Hg.
  - intros Hnd; unfold guilds; simpl; rewrite length_map, guild_dict_length.
    rewrite (nodup_fixed_point Z.eq_dec Hnd).
    apply length_map.
Qed.

Lemma fetch_guilds_replaces_witness :
  let gs := [mkGuild 1 "a"; mkGuild 2 "b"] in
  let env := make_env logged_in_session (Ok gs) (Ok []) (Ok PNone) in
  List.length (guilds (fst (fetch_guilds env sample_user))) = 2%nat.
Proof.
  intros gs env.
  refine (proj2 (proj2 (proj2 (proj2 (proj2
           (fetch_guilds_replaces env sample_user gs eq_refl))))) _).
  vm_compute; repeat constructor; simpl; intuition discriminate.
Defined.

(** C3: when [Guild.fetch_from_api()] raises, [fetch_guilds()] raises the
    same error and the user, its guild cache included, is unchanged. *)
Theorem fetch_guilds_error_keeps_cache (env : Env) (u : User) (e : pyerr) :
  guild_api env = Err e -> fetch_guilds env u = (u, Err e).
Proof. intros H; unfold fetch_guilds; rewrite H; reflexivity. Qed.

Lemma fetch_guilds_error_keeps_cache_witness :
  let u := fst (fetch_guilds (make_env logged_in_session (Ok [mkGuild 1 "a"]) (Ok []) (Ok PNone))
                  sample_user) in
  fetch_guilds (make_env logged_in_session (Err Unauthorized) (Ok []) (Ok PNone)) u
    = (u, Err Unauthorized).
Proof. intros u; apply fetch_guilds_error_keeps_cache; reflexivity. Defined.

(** ** Which methods touch which attribute *)

(** C10: [fetch_guilds()] changes neither [connections] nor any scalar
    attribute, and [fetch_connections()] changes neither the guild cache
    nor any scalar attribute, whether the API call succeeds or raises. *)
Theorem fetch_methods_frame (env : Env) (u : User) :
  user_scalars (fst (fetch_guilds env u)) = user_scalars u /\
  _payload (fst (fetch_guilds env u)) = _payload u /\
  connections (fst (fetch_guilds env u)) = connections u /\
  user_scalars (fst (fetch_connections env u)) = user_scalars u /\
  _payload (fst (fetch_connections env u)) = _payload u /\
  _guilds (fst (fetch_connections env u)) = _guilds u.
Proof.
  unfold fetch_guilds, fetch_connections.
  destruct (guild_api env), (connection_api env); repeat split.
Qed.

Lemma run_method_guilds (cfg : Configs) (env : Env) (m : Method) (u : User) :
  m <> MFetchGuilds -> _guilds (run_method cfg env m u) = _guilds u.
Proof.
  intros Hm; destruct m; simpl; try reflexivity; [congruence|].
  unfold fetch_connections; destruct (connection_api env); reflexivity.
Qed.

Lemma run_method_connections (cfg : Configs) (env : Env) (m : Method) (u : User) :
  m <> MFetchConnections -> connections (run_method cfg env m u) = connections u.
Proof.
  intros Hm; destruct m; simpl; try reflexivity; [|congruence].
  unfold fetch_guilds; destruct (guild_api env); reflexivity.
Qed.

(** C8: a freshly constructed user has [guilds == []] and
    [connections == []]; along any sequence of method calls without
    [fetch_guilds] the guild cache keeps its value, and without
    [fetch_connections] the connection list keeps its value. *)
Theorem caches_empty_until_fetch (cfg : Configs) (env : Env) :
  (forall p u, User_init p = Ok u -> guilds u = [] /\ connections u = []) /\
  (forall ms u, ~ In MFetchGuilds ms -> _guilds (run_methods cfg env ms u) = _guilds u) /\
  (forall ms u, ~ In MFetchConnections ms ->
     connections (run_methods cfg env ms u) = connections u).
Proof.
  split; [|split].
  - intros p u Hu; apply User_init_ok_inv in Hu as (iv & n & d & _ & _ & _ & _ & ->).
    split; reflexivity.
  - intros ms; unfold run_methods; induction ms as [|m ms IH]; intros u Hin; simpl; [reflexivity|].
    rewrite IH by (intros H; apply Hin; right; exact H).
    apply run_method_guilds; intros ->; apply Hin; left; reflexivity.
  - intros ms; unfold run_methods; induction ms as [|m ms IH]; intros u Hin; simpl; [reflexivity|].
    rewrite IH by (intros H; apply Hin; right; exact H).
    apply run_method_connections; intros ->; apply Hin; left; reflexivity.
Qed.

Lemma caches_empty_until_fetch_witness :
  let env := make_env logged_in_session (Ok [mkGuild 1 "a"])
               (Ok [mkUserConnection "c1" "twitch"]) (Ok PNone) in
  guilds sample_user = [] /\ connections sample_user = [] /\
  _guilds (run_methods discord_configs env [MStr; MAddToGuild 5; MFetchConnections] sample_user)
    = [] /\
  connections (run_methods discord_configs env [MFetchGuilds; MAvatarUrl] sample_user) = [].
Proof.
  intros env.
  destruct (caches_empty_until_fetch discord_configs env) as (H1 & H2 & H3).
  destruct (H1 sample_payload sample_user eq_refl) as [Hg Hc].
  split; [exact Hg|split; [exact Hc|split]].
  - rewrite H2; [reflexivity|simpl; intuition discriminate].
  - rewrite H3; [exact Hc|simpl; intuition discriminate].
Defined.

(** ** [add_to_guild] *)

Lemma py_str_int_ok (z : Z) : int_str_ok z = true -> py_str_int z = Ok (str_int z).
Proof. intros H; unfold py_str_int; rewrite H; reflexivity. Qed.

(** With a logged-in session, a bot token configured and ids that [str()]
    can render, [add_to_guild] returns the request's body when it is
    truthy and [{}] otherwise (a no-content answer included); it never
    returns [None]. *)
Lemma add_to_guild_result (env : Env) (u : User) (gid : Z) (tok bt : string) (r : pyval) :
  dict_lookup "DISCORD_OAUTH2_TOKEN" (session env) = Some (PDict [("access_token", PStr tok)]) ->
  dict_lookup "DISCORD_BOT_TOKEN" (app_config env) = Some bt ->
  int_str_ok gid = true -> int_str_ok (user_id u) = true ->
  (forall route data headers, request env route "PUT" false data headers = Ok r) ->
  fst (add_to_guild env u gid) = u /\
  snd (add_to_guild env u gid) = Ok (if truthy r then r else PDict []) /\
  snd (add_to_guild env u gid) <> Ok PNone.
Proof.
  intros Hs Hc Hg Hu Hr; unfold add_to_guild, dict_getitem; simpl.
  rewrite Hs; simpl; rewrite Hc; simpl.
  rewrite (py_str_int_ok gid Hg), (py_str_int_ok (user_id u) Hu); simpl; rewrite Hr; simpl.
  split; [reflexivity|split; [reflexivity|]].
  destruct r; simpl; try discriminate.
  destruct b; discriminate.
  destruct (negb (z =? 0)%Z); discriminate.
  destruct (negb (s =? "")); discriminate.
  destruct kvs; discriminate.
Qed.

(** C4: in a session holding no OAuth2 token, [add_to_guild] raises
    [KeyError('DISCORD_OAUTH2_TOKEN')] from [session[...]] before any
    request is made, while the docstring promises [Unauthorized]. *)
Theorem add_to_guild_no_token_keyerror :
  let env := make_env [] (Ok []) (Ok []) (Err Unauthorized) in
  add_to_guild env sample_user 81384788765712384%Z
    = (sample_user, Err (KeyError "DISCORD_OAUTH2_TOKEN")) /\
  KeyError "DISCORD_OAUTH2_TOKEN" <> Unauthorized.
Proof. split; [reflexivity|discriminate]. Qed.

(** ** [avatar_url] *)







(** ** More of [user.py]: [int()] and [str()] of ids *)

Lemma digit_char (d : N) :
  (d < 10)%N ->
  is_digit (ascii_of_N (48 + d)) = true /\
  digit_value (ascii_of_N (48 + d)) = Z.of_N d /\
  is_py_space (ascii_of_N (48 + d)) = false.
Proof.
  intros Hd.
  assert (d = 0 \/ d = 1 \/ d = 2 \/ d = 3 \/ d = 4 \/ d = 5 \/ d = 6 \/ d = 7 \/
          d = 8 \/ d = 9)%N as Hc by lia.
  repeat destruct Hc as [->|Hc]; try (subst d); repeat split.
Qed.

Lemma size_nat_bound (p : positive) : (Npos p < 2 ^ N.of_nat (Pos.size_nat p))%N.
Proof.
  induction p as [p IH|p IH|]; simpl Pos.size_nat; try (simpl; lia);
    rewrite Nat2N.inj_succ, N.pow_succ_r'; lia.
Qed.

Lemma size_nat_succ (p : positive) : exists m, Pos.size_nat p = S m.
Proof. destruct p; simpl; eexists; reflexivity. Qed.

Lemma parse_digits_digit (d : N) (r : string) (a : Z) (b : bool) :
  (d < 10)%N ->
  parse_digits (String (ascii_of_N (48 + d)) r) a b = parse_digits r (a * 10 + Z.of_N d)%Z true.
Proof.
  intros Hd; destruct (digit_char d Hd) as (H1 & H2 & _).
  cbn [parse_digits]; rewrite H1, H2; reflexivity.
Qed.

Lemma dec_digits_S (f : nat) (n : N) (acc : string) :
  dec_digits (S f) n acc =
  if N.eqb (N.div n 10) 0 then String (ascii_of_N (48 + N.modulo n 10)) acc
  else dec_digits f (N.div n 10) (String (ascii_of_N (48 + N.modulo n 10)) acc).
Proof. reflexivity. Qed.

Lemma dec_digits_parse (f : nat) : forall (n : N) (acc : string) (a : Z) (b : bool),
  (n < 2 ^ N.of_nat (S f))%N ->
  exists k : N, parse_digits (dec_digits (S f) n acc) a b =
                parse_digits acc (a * 10 ^ Z.of_N k + Z.of_N n)%Z true.
Proof.
  induction f as [|f IH]; intros n acc a b Hn.
  - assert (Hq : N.div n 10 = 0%N) by (apply N.div_small; simpl in Hn; lia).
    rewrite dec_digits_S, Hq; simpl N.eqb; cbv iota.
    rewrite parse_digits_digit by (apply N.mod_lt; lia).
    exists 1%N; rewrite N.mod_small by (simpl in Hn; lia).
    f_equal; simpl; lia.
  - pose proof (N.div_mod n 10 ltac:(lia)) as Hdm.
    pose proof (N.mod_lt n 10 ltac:(lia)) as Hlt.
    rewrite dec_digits_S.
    destruct (N.eqb_spec (N.div n 10) 0) as [Hq|Hq].
    + rewrite parse_digits_digit by exact Hlt.
      exists 1%N; f_equal; rewrite Hq in Hdm; simpl; lia.
    + assert (Hb : (N.div n 10 < 2 ^ N.of_nat (S f))%N).
      { rewrite Nat2N.inj_succ, N.pow_succ_r' in Hn.
        assert (N.div n 10 <= N.div n 2)%N by (apply N.div_le_compat_l; lia).
        assert (2 * N.div n 2 <= n)%N by (apply N.Div0.mul_div_le).
        lia. }
      destruct (IH (N.div n 10) (String (ascii_of_N (48 + N.modulo n 10)) acc) a b Hb)
        as [k Hk].
      rewrite Hk, parse_digits_digit by exact Hlt.
      exists (N.succ k); f_equal.
      rewrite N2Z.inj_succ, Z.pow_succ_r by lia.
      remember (10 ^ Z.of_N k)%Z as P.
      rewrite Hdm at 3; rewrite N2Z.inj_add, N2Z.inj_mul; simpl (Z.of_N 10); ring.
Qed.

Lemma dec_digits_chars (f : nat) (P : ascii -> bool) :
  (forall d, (d < 10)%N -> P (ascii_of_N (48 + d)) = true) ->
  forall n acc, all_chars P acc = true -> all_chars P (dec_digits f n acc) = true.
Proof.
  intros HP; induction f as [|f IH]; intros n acc Hacc; [exact Hacc|].
  cbn [dec_digits].
  assert (Hc : all_chars P (String (ascii_of_N (48 + N.modulo n 10)) acc) = true)
    by (cbn [all_chars]; rewrite HP, Hacc; [reflexivity|apply N.mod_lt; lia]).
  destruct (N.eqb (N.div n 10) 0); [exact Hc|apply IH, Hc].
Qed.

Lemma rev_string_chars (P : ascii -> bool) (s acc : string) :
  all_chars P (rev_string s acc) = all_chars P s && all_chars P acc.
Proof.
  revert acc; induction s as [|c r IH]; intros acc; simpl; [reflexivity|].
  rewrite IH; simpl; destruct (P c), (all_chars P r), (all_chars P acc); reflexivity.
Qed.

Lemma rev_string_rev_string (s acc b : string) :
  rev_string (rev_string s acc) b = rev_string acc (s ++ b).
Proof.
  revert acc; induction s as [|c r IH]; intros acc; simpl; [reflexivity|].
  rewrite IH; reflexivity.
Qed.

Lemma append_empty (s : string) : s ++ "" = s.
Proof. induction s as [|c r IH]; simpl; [reflexivity|rewrite IH; reflexivity]. Qed.

Lemma lstrip_no_space (s : string) :
  all_chars (fun c => negb (is_py_space c)) s = true -> lstrip s = s.
Proof.
  destruct s as [|c r]; simpl; [reflexivity|].
  destruct (is_py_space c); simpl; [discriminate|reflexivity].
Qed.

Lemma strip_no_space (s : string) :
  all_chars (fun c => negb (is_py_space c)) s = true -> strip s = s.
Proof.
  intros H; unfold strip; rewrite (lstrip_no_space s H).
  rewrite lstrip_no_space by (rewrite rev_string_chars, H; reflexivity).
  rewrite rev_string_rev_string; apply append_empty.
Qed.

Lemma dec_digits_no_space (f : nat) (n : N) :
  all_chars (fun c => negb (is_py_space c)) (dec_digits f n "") = true.
Proof.
  apply dec_digits_chars; [|reflexivity].
  intros d Hd; destruct (digit_char d Hd) as (_ & _ & ->); reflexivity.
Qed.

Lemma dec_digits_digits (f : nat) (n : N) : all_chars is_digit (dec_digits f n "") = true.
Proof.
  apply dec_digits_chars; [|reflexivity].
  intros d Hd; apply (digit_char d Hd).
Qed.

Lemma parse_pos_digits (p : positive) :
  parse_digits (dec_digits (Pos.size_nat p) (Npos p) "") 0%Z false = Some (Zpos p).
Proof.
  destruct (size_nat_succ p) as [m Hm].
  pose proof (size_nat_bound p) as Hb; rewrite Hm in Hb |- *.
  destruct (dec_digits_parse m (Npos p) "" 0%Z false Hb) as [k ->]; reflexivity.
Qed.

(** [int(str(z)) == z]: the decimal text [str()] gives an id reads back
    through [int()] to the same id. *)
Lemma parse_int_str_int (z : Z) : parse_int (str_int z) = Some z.
Proof.
  destruct z as [|p|p]; [reflexivity| |].
  - unfold parse_int, str_int.
    rewrite strip_no_space by apply dec_digits_no_space.
    pose proof (dec_digits_digits (Pos.size_nat p) (Npos p)) as Hd.
    destruct (dec_digits (Pos.size_nat p) (Npos p) "") as [|c r] eqn:E;
      [pose proof (parse_pos_digits p) as Hp; rewrite E in Hp; discriminate Hp|].
    cbn [all_chars] in Hd; apply andb_prop in Hd as [Hc _].
    destruct (Ascii.eqb_spec c "-") as [->|_]; [discriminate Hc|].
    destruct (Ascii.eqb_spec c "+") as [->|_]; [discriminate Hc|].
    rewrite <- E; apply parse_pos_digits.
  - unfold parse_int, str_int.
    rewrite strip_no_space
      by (cbn [String.append all_chars]; apply dec_digits_no_space).
    cbn [String.append]; simpl Ascii.eqb; cbv iota.
    rewrite parse_pos_digits; reflexivity.
Qed.

(** ** More of [User.__init__] *)



(** [str(user)] of a constructed user with string [username] and
    [discriminator] is ["username#discriminator"]. *)
Theorem User_str_init (p : pydict) (u : User) (n d : string) :
  User_init p = Ok u ->
  dict_lookup "username" p = Some (PStr n) ->
  dict_lookup "discriminator" p = Some (PStr d) ->
  User_str u = Ok (n ++ "#" ++ d).
Proof.
  intros H Hn Hd; apply User_init_ok_inv in H as (iv & n' & d' & _ & _ & Hn' & Hd' & ->).
  rewrite Hn in Hn'; rewrite Hd in Hd'.
  injection Hn' as <-; injection Hd' as <-; reflexivity.
Qed.

Lemma User_str_init_witness : User_str sample_user = Ok "Nelly#1337".
Proof.
  exact (User_str_init sample_payload sample_user "Nelly" "1337" eq_refl eq_refl eq_refl).
Defined.

Lemma count_digits_dec (f : nat) : forall (D n : N) (acc : string),
  (1 <= D)%N -> (n < 10 ^ D)%N ->
  (count_digits (dec_digits f n acc) <= count_digits acc + Z.of_N D)%Z.
Proof.
  induction f as [|f IH]; intros D n acc HD Hn; [cbn [dec_digits]; lia|].
  rewrite dec_digits_S.
  pose proof (N.mod_lt n 10 ltac:(lia)) as Hlt.
  assert (Hc : forall r, count_digits (String (ascii_of_N (48 + N.modulo n 10)) r) =
                         (1 + count_digits r)%Z).
  { intros r; cbn [count_digits]; rewrite (proj1 (digit_char _ Hlt)); reflexivity. }
  destruct (N.eqb_spec (N.div n 10) 0) as [Hq|Hq]; [rewrite Hc; lia|].
  assert (Hd : (N.div n 10 < 10 ^ (D - 1))%N).
  { apply N.Div0.div_lt_upper_bound.
    replace D with (N.succ (D - 1)) in Hn by lia; rewrite N.pow_succ_r' in Hn; exact Hn. }
  destruct (N.eq_dec D 1) as [->|HD1].
  { change (10 ^ (1 - 1))%N with 1%N in Hd; exfalso; apply Hq, N.lt_1_r, Hd. }
  specialize (IH (D - 1)%N (N.div n 10) (String (ascii_of_N (48 + N.modulo n 10)) acc)
                ltac:(lia) Hd).
  rewrite Hc in IH; rewrite N2Z.inj_sub in IH by lia; lia.
Qed.

(** [str()] of an [int] that it accepts has at most 4300 digits, so [int()]
    takes it back. *)
Lemma count_digits_str_int (z : Z) :
  int_str_ok z = true -> (count_digits (str_int z) <= max_str_digits)%Z.
Proof.
  unfold int_str_ok; intros H; apply Z.ltb_lt in H.
  assert (Hpos : forall p, (Zpos p < 10 ^ max_str_digits)%Z ->
            (count_digits (dec_digits (Pos.size_nat p) (Npos p) "") <= max_str_digits)%Z).
  { intros p Hp.
    assert (HD : Z.of_N (Z.to_N max_str_digits) = max_str_digits)
      by (apply Z2N.id; unfold max_str_digits; lia).
    pose proof (count_digits_dec (Pos.size_nat p) (Z.to_N max_str_digits) (Npos p) "") as Hc.
    rewrite HD in Hc; apply Hc.
    - apply N2Z.inj_le; rewrite HD; unfold max_str_digits; lia.
    - apply N2Z.inj_lt; rewrite N2Z.inj_pow, HD; exact Hp. }
  destruct z as [|p|p].
  - apply Z.leb_le; vm_compute; reflexivity.
  - apply Hpos; exact H.
  - apply Hpos; exact H.
Qed.

(** An id given as the text [str()] writes for an integer (Discord sends
    ids as strings) constructs a user whose [id] is that integer: [int()]
    reads back what [str()] writes. *)
Theorem User_init_str_id (p : pydict) (z : Z) (s : string) :
  py_str_int z = Ok s ->
  dict_lookup "id" p = Some (PStr s) ->
  dict_lookup "username" p <> None -> dict_lookup "discriminator" p <> None ->
  exists u, User_init p = Ok u /\ user_id u = z.
Proof.
  intros Hs Hid Hn Hd; unfold py_str_int in Hs.
  destruct (int_str_ok z) eqn:Hok; [injection Hs as <-|discriminate].
  unfold User_init, DiscordModelsBase_init, dict_getitem.
  rewrite Hid; cbn [bind py_int]; rewrite parse_int_str_int.
  assert (Hle : Z.leb (count_digits (str_int z)) max_str_digits = true)
    by (apply Z.leb_le, count_digits_str_int, Hok).
  rewrite Hle; cbn [bind].
  destruct (dict_lookup "username" p); [|congruence].
  destruct (dict_lookup "discriminator" p); [|congruence].
  cbn [bind]; eexists; split; reflexivity.
Qed.

Lemma User_init_str_id_witness :
  exists u, User_init [("id", PStr "-80351110224678912"); ("username", PStr "x");
                       ("discriminator", PStr "0001")] = Ok u /\
            user_id u = (-80351110224678912)%Z.
Proof.
  apply (User_init_str_id _ (-80351110224678912)%Z "-80351110224678912");
    [vm_compute; reflexivity|reflexivity|discriminate|discriminate].
Defined.

(** ** More of the guild cache *)

Lemma dict_setitem_new {V} (k : Z) (v : V) (d : list (Z * V)) :
  ~ In k (map fst d) -> dict_setitem k v d = (d ++ [(k, v)])%list.
Proof.
  induction d as [|[k' v'] r IH]; simpl; intros Hn; [reflexivity|].
  destruct (Z.eqb_spec k k') as [->|_]; [exfalso; apply Hn; left; reflexivity|].
  rewrite IH; [reflexivity|intros H; apply Hn; right; exact H].
Qed.

Lemma guild_dict_fold_distinct (gs : list Guild) (d : list (Z * Guild)) :
  NoDup (map fst d ++ map guild_id gs)%list ->
  fold_left (fun d g => dict_setitem (guild_id g) g d) gs d =
    (d ++ map (fun g => (guild_id g, g)) gs)%list.
Proof.
  revert d; induction gs as [|g gs IH]; intros d Hnd; simpl; [symmetry; apply app_nil_r|].
  rewrite dict_setitem_new.
  - rewrite IH, <- app_assoc; [reflexivity|].
    rewrite map_app, <- app_assoc; simpl; exact Hnd.
  - intros Hin; apply NoDup_remove_2 in Hnd; apply Hnd, in_or_app; left; exact Hin.
Qed.

(** When the fetched guilds have distinct ids, the [guilds] view after
    [fetch_guilds()] lists them in the order the API returned them. *)
Theorem fetch_guilds_order (env : Env) (u : User) (gs : list Guild) :
  guild_api env = Ok gs -> NoDup (map guild_id gs) ->
  guilds (fst (fetch_guilds env u)) = gs /\ snd (fetch_guilds env u) = Ok gs.
Proof.
  intros Hapi Hnd; unfold fetch_guilds; rewrite Hapi; simpl.
  unfold guilds; simpl; unfold guild_dict.
  rewrite guild_dict_fold_distinct by exact Hnd; simpl.
  rewrite map_map, map_id; split; reflexivity.
Qed.

Lemma fetch_guilds_order_witness :
  guilds (fst (fetch_guilds (make_env [] (Ok [mkGuild 9 "b"; mkGuild 3 "a"]) (Ok []) (Ok PNone))
                 sample_user)) = [mkGuild 9 "b"; mkGuild 3 "a"].
Proof.
  apply (fetch_guilds_order (make_env [] (Ok [mkGuild 9 "b"; mkGuild 3 "a"]) (Ok []) (Ok PNone))
           sample_user [mkGuild 9 "b"; mkGuild 3 "a"] eq_refl).
  repeat constructor; simpl; intuition discriminate.
Defined.

Lemma zlookup_setitem {V} (k k' : Z) (v : V) (d : list (Z * V)) :
  zlookup k (dict_setitem k' v d) = if Z.eqb k' k then Some v else zlookup k d.
Proof.
  induction d as [|[k0 v0] r IH]; simpl.
  - rewrite Z.eqb_sym; reflexivity.
  - destruct (Z.eqb_spec k' k0) as [->|Hne]; simpl.
    + destruct (Z.eqb k0 k) eqn:E; rewrite Z.eqb_sym, E; reflexivity.
    + rewrite IH; destruct (Z.eqb_spec k' k) as [->|]; [|reflexivity].
      destruct (Z.eqb_spec k k0); [congruence|reflexivity].
Qed.

(** Looking a guild id up in the cache after [fetch_guilds()] gives the
    last fetched record with that id (a later duplicate overwrites an
    earlier one), and nothing for an id that was not fetched. *)
Theorem fetch_guilds_lookup (env : Env) (u : User) (gs : list Guild) (k : Z) :
  guild_api env = Ok gs ->
  zlookup k (_guilds (fst (fetch_guilds env u))) = last_guild_with k gs.
Proof.
  intros Hapi; unfold fetch_guilds; rewrite Hapi; simpl.
  unfold guild_dict, last_guild_with.
  replace (@None Guild) with (zlookup k (@nil (Z * Guild))) by reflexivity.
  clear Hapi; generalize (@nil (Z * Guild)).
  induction gs as [|g gs IH]; intros d; simpl; [reflexivity|].
  rewrite IH, zlookup_setitem; reflexivity.
Qed.

Lemma fetch_guilds_lookup_witness :
  zlookup 1 (_guilds (fst (fetch_guilds
     (make_env [] (Ok [mkGuild 1 "old"; mkGuild 2 "b"; mkGuild 1 "new"]) (Ok []) (Ok PNone))
     sample_user))) = Some (mkGuild 1 "new").
Proof.
  rewrite (fetch_guilds_lookup
             (make_env [] (Ok [mkGuild 1 "old"; mkGuild 2 "b"; mkGuild 1 "new"]) (Ok []) (Ok PNone))
             sample_user [mkGuild 1 "old"; mkGuild 2 "b"; mkGuild 1 "new"]);
    reflexivity.
Defined.

(** Calling [fetch_guilds()] twice against the same API answer leaves the
    same user and returns the same result as calling it once. *)
Theorem fetch_guilds_twice (env : Env) (u : User) :
  fetch_guilds env (fst (fetch_guilds env u)) = fetch_guilds env u.
Proof. unfold fetch_guilds; destruct (guild_api env); reflexivity. Qed.

(** [fetch_guilds()] and [fetch_connections()] write disjoint attributes:
    running them in either order leaves the same user. *)
Theorem fetch_guilds_connections_commute (env : Env) (u : User) :
  fst (fetch_connections env (fst (fetch_guilds env u))) =
  fst (fetch_guilds env (fst (fetch_connections env u))).
Proof.
  unfold fetch_guilds, fetch_connections.
  destruct (guild_api env), (connection_api env); reflexivity.
Qed.

(** ** More of [add_to_guild] *)

(** The failures of [add_to_guild], in the order the code meets them: a
    session token that is not a dict raises [TypeError]; a token dict
    without ["access_token"] raises [KeyError('access_token')]; a missing
    [DISCORD_BOT_TOKEN] setting raises [KeyError('DISCORD_BOT_TOKEN')]
    before any request; an id beyond [str()]'s 4300-digit limit raises
    [ValueError] while the route is built; an error of the request itself
    is raised as is.  The user is unchanged in every case. *)
Theorem add_to_guild_errors (env : Env) (u : User) (gid : Z) :
  (forall t, dict_lookup "DISCORD_OAUTH2_TOKEN" (session env) = Some t ->
     (forall kvs, t <> PDict kvs) -> add_to_guild env u gid = (u, Err TypeError)) /\
  (forall kvs, dict_lookup "DISCORD_OAUTH2_TOKEN" (session env) = Some (PDict kvs) ->
     dict_lookup "access_token" kvs = None ->
     add_to_guild env u gid = (u, Err (KeyError "access_token"))) /\
  (forall kvs tok, dict_lookup "DISCORD_OAUTH2_TOKEN" (session env) = Some (PDict kvs) ->
     dict_lookup "access_token" kvs = Some tok ->
     dict_lookup "DISCORD_BOT_TOKEN" (app_config env) = None ->
     add_to_guild env u gid = (u, Err (KeyError "DISCORD_BOT_TOKEN"))) /\
  (forall kvs tok bt, dict_lookup "DISCORD_OAUTH2_TOKEN" (session env) = Some (PDict kvs) ->
     dict_lookup "access_token" kvs = Some tok ->
     dict_lookup "DISCORD_BOT_TOKEN" (app_config env) = Some bt ->
     int_str_ok gid = false \/ int_str_ok (user_id u) = false ->
     add_to_guild env u gid = (u, Err ValueError)) /\
  (forall kvs tok bt e, dict_lookup "DISCORD_OAUTH2_TOKEN" (session env) = Some (PDict kvs) ->
     dict_lookup "access_token" kvs = Some tok ->
     dict_lookup "DISCORD_BOT_TOKEN" (app_config env) = Some bt ->
     int_str_ok gid = true -> int_str_ok (user_id u) = true ->
     (forall route data headers, request env route "PUT" false data headers = Err e) ->
     add_to_guild env u gid = (u, Err e)).
Proof.
  unfold add_to_guild, dict_getitem.
  split; [|split; [|split; [|split]]].
  - intros t Ht Hnd; rewrite Ht; simpl.
    destruct t; try reflexivity; exfalso; eapply Hnd; reflexivity.
  - intros kvs Ht Ha; rewrite Ht; simpl; unfold dict_getitem; rewrite Ha; reflexivity.
  - intros kvs tok Ht Ha Hb; rewrite Ht; simpl; unfold dict_getitem; rewrite Ha; simpl.
    rewrite Hb; reflexivity.
  - intros kvs tok bt Ht Ha Hb Hbad; rewrite Ht; simpl; unfold dict_getitem; rewrite Ha; simpl.
    rewrite Hb; cbn [bind]; unfold py_str_int.
    destruct Hbad as [Hg|Hu]; [rewrite Hg; reflexivity|].
    destruct (int_str_ok gid); cbn [bind]; rewrite ?Hu; reflexivity.
  - intros kvs tok bt e Ht Ha Hb Hg Hu Hr; rewrite Ht; simpl; unfold dict_getitem; rewrite Ha; simpl.
    rewrite Hb; cbn [bind]; rewrite (py_str_int_ok gid Hg), (py_str_int_ok (user_id u) Hu).
    cbn [bind]; rewrite Hr; reflexivity.
Qed.

Lemma add_to_guild_errors_witness :
  add_to_guild (make_env [("DISCORD_OAUTH2_TOKEN", PNone)] (Ok []) (Ok []) (Ok PNone))
    sample_user 5 = (sample_user, Err TypeError) /\
  add_to_guild (make_env logged_in_session (Ok []) (Ok []) (Ok PNone)) sample_user
    (10 ^ 4300) = (sample_user, Err ValueError) /\
  add_to_guild (make_env logged_in_session (Ok []) (Ok []) (Err HttpError)) sample_user 5
    = (sample_user, Err HttpError).
Proof.
  split; [|split].
  - apply (proj1 (add_to_guild_errors
                    (make_env [("DISCORD_OAUTH2_TOKEN", PNone)] (Ok []) (Ok []) (Ok PNone))
                    sample_user 5) PNone eq_refl); discriminate.
  - apply (proj1 (proj2 (proj2 (proj2 (add_to_guild_errors
                    (make_env logged_in_session (Ok []) (Ok []) (Ok PNone)) sample_user
                    (10 ^ 4300)))))
             [("access_token", PStr "user-token")] (PStr "user-token") "bot-secret");
      [reflexivity|reflexivity|reflexivity|left; vm_compute; reflexivity].
  - apply (proj2 (proj2 (proj2 (proj2 (add_to_guild_errors
                    (make_env logged_in_session (Ok []) (Ok []) (Err HttpError)) sample_user 5))))
             [("access_token", PStr "user-token")] (PStr "user-token") "bot-secret" HttpError);
      try reflexivity; vm_compute; reflexivity.
Defined.

(** ** The default avatar *)

Lemma digits_not_animated (d : string) :
  all_chars is_digit d = true -> startswith d "a_" = false.
Proof.
  destruct d as [|c r]; [reflexivity|]; cbn [all_chars]; intros H.
  apply andb_prop in H as [Hc _].
  unfold startswith; cbn [String.prefix].
  destruct (ascii_dec "a" c) as [<-|]; [discriminate Hc|reflexivity].
Qed.

(** A payload without ["avatar"] gives an avatar URL built from the
    discriminator: for a digit-string discriminator (a Discord tag) the
    URL's hash field is the discriminator and its format the static one;
    for a discriminator that is not a string (a JSON number, say),
    reading [avatar_url] raises [AttributeError]. *)
Theorem avatar_url_without_avatar (cfg : Configs) (p : pydict) (u : User) :
  User_init p = Ok u -> dict_lookup "avatar" p = None ->
  (forall d, discriminator u = PStr d -> all_chars is_digit d = true ->
     avatar_url_segments cfg u =
       format_segments (DISCORD_USER_AVATAR_BASE_URL cfg)
         [("user_id", PInt (user_id u)); ("avatar_hash", PStr d);
          ("format", PStr (DISCORD_IMAGE_FORMAT cfg))]) /\
  ((forall d, discriminator u <> PStr d) -> avatar_url cfg u = Err AttributeError).
Proof.
  intros Hu Ha.
  assert (Hh : avatar_hash u = discriminator u).
  { apply User_init_ok_inv in Hu as (iv & n & d & _ & _ & _ & _ & Hu).
    rewrite Hu; cbn [avatar_hash discriminator]; unfold dict_get; rewrite Ha; reflexivity. }
  unfold avatar_url, avatar_url_segments, is_avatar_animated; rewrite Hh.
  split.
  - intros d Hd Hdig; rewrite Hd; cbn [bind]; rewrite (digits_not_animated d Hdig); reflexivity.
  - intros Hns; destruct (discriminator u); try reflexivity.
    exfalso; eapply Hns; reflexivity.
Qed.

Lemma avatar_url_without_avatar_witness :
  let p := [("id", PStr "42"); ("username", PStr "x"); ("discriminator", PStr "0001")] in
  let q := [("id", PStr "42"); ("username", PStr "x"); ("discriminator", PInt 1)] in
  (exists u, User_init p = Ok u /\
     avatar_url discord_configs u = Ok "https://cdn.discordapp.com/avatars/42/0001.png") /\
  (exists u, User_init q = Ok u /\ avatar_url discord_configs u = Err AttributeError).
Proof.
  intros p q; split.
  - eexists; split; [reflexivity|].
    unfold avatar_url.
    rewrite (proj1 (avatar_url_without_avatar discord_configs p _ eq_refl eq_refl) "0001"
               eq_refl eq_refl).
    reflexivity.
  - eexists; split; [reflexivity|].
    apply (proj2 (avatar_url_without_avatar discord_configs q _ eq_refl eq_refl)); discriminate.
Defined.
